(** * svm-mcp: the six SOON tool handlers of [src/index.ts]

    The server registers six tools.  Every handler takes one [address]
    string, builds a [PublicKey] from it, sends one or two JSON-RPC
    requests through one of two module-level [Connection] handles and
    wraps a string into a one-block response.

    The blockchain client ([Connection], [PublicKey] of @solana/web3.js)
    and [JSON.stringify] are not code of this repository: they are taken
    as an interface ([Web3]) that answers every call either with a value
    or with a thrown JavaScript value.  A handler is a computation in a
    small monad [Async] that threads the log of the operations it
    performs and may end in a thrown value (a rejected promise). *)

From Stdlib Require Import String Ascii List ZArith Lia Bool.
From Stdlib Require Import DecimalString.
From ExtLib Require Import Structures.Monad Structures.MonadExc.
Import ListNotations.
Import MonadNotation.

Local Open Scope string_scope.
Local Open Scope list_scope.
Local Open Scope monad_scope.

(** ** JavaScript values that can be thrown *)

(** What a [catch (error)] clause can receive: an instance of [Error]
    (with its [name] and [message]), or any other value, kept by the
    string that [String(error)] yields for it. *)
Inductive Thrown : Type :=
| JsError (name message : string)
| JsValue (str : string).

(** [String(error)]: an [Error] prints as [name: message]. *)
Definition JsString (error : Thrown) : string :=
  match error with
  | JsError name message => (name ++ ": " ++ message)%string
  | JsValue str => str
  end.

(** [error instanceof Error ? error.message : String(error)] *)
Definition error_text (error : Thrown) : string :=
  match error with
  | JsError _ message => message
  | JsValue _ => JsString error
  end.

(** ** The response envelope *)

Record ContentBlock : Type := mkBlock {
  type : string;
  text : string
}.

Record CallToolResult : Type := mkResult {
  content : list ContentBlock
}.

(** [{ content: [ { type: "text", text: t } ] }] *)
Definition text_result (t : string) : CallToolResult :=
  {| content := [ {| type := "text"; text := t |} ] |}.

(** ** The two connection handles *)

Record Connection : Type := mkConnection {
  rpcEndpoint : string
}.

Definition connectionTestnet : Connection :=
  mkConnection "https://rpc.testnet.soo.network/rpc".

Definition connectionMainnet : Connection :=
  mkConnection "https://rpc.mainnet.soo.network/rpc".

(** The validated arguments of every tool: [{ address: z.string() }]. *)
Record Args : Type := mkArgs {
  address : string
}.

(** [{ limit: 1 }]: the options object of [getSignaturesForAddress]. *)
Record SignaturesForAddressOptions : Type := mkOptions {
  limit : option Z
}.

(** Substring test, used to read the network out of a tool name. *)
Fixpoint includes (needle hay : string) : bool :=
  if String.prefix needle hay then true
  else match hay with
       | EmptyString => false
       | String _ rest => includes needle rest
       end.

(** Decimal printing of an integer, as a template literal prints a
    JavaScript integer number below 1e21. *)
Definition Z_toString (z : Z) : string :=
  NilZero.string_of_int (Z.to_int z).

Section Handlers.

(** The types of the values the client library hands back. *)
Variables PublicKey Number ConfirmedSignatureInfo
          ConfirmedTransaction TokenAccounts : Type.

(** [{ programId: key }] (the library also accepts [{ mint: key }]). *)
Inductive TokenAccountsFilter : Type :=
| programId (key : PublicKey)
| mint (key : PublicKey).

(** The external library, as seen from one tool invocation: every call
    answers with a value ([inr]) or throws / rejects ([inl]). *)
Record Web3 : Type := mkWeb3 {
  PublicKey_new : string -> Thrown + PublicKey;
  getBalance : Connection -> PublicKey -> Thrown + Number;
  getSignaturesForAddress :
    Connection -> PublicKey -> SignaturesForAddressOptions ->
    Thrown + list ConfirmedSignatureInfo;
  getConfirmedTransaction :
    Connection -> string -> Thrown + option ConfirmedTransaction;
  getTokenAccountsByOwner :
    Connection -> PublicKey -> TokenAccountsFilter -> Thrown + TokenAccounts;
  signature : ConfirmedSignatureInfo -> string;
  Number_toString : Number -> string;
  stringify_transaction : ConfirmedTransaction -> Thrown + string;
  stringify_tokens : TokenAccounts -> Thrown + string
}.

(** *** The log of operations *)

(** One entry per request sent through a connection handle, and one
    per element read of an array. *)
Inductive Event : Type :=
| Call_getBalance (c : Connection) (key : PublicKey)
| Call_getSignaturesForAddress
    (c : Connection) (key : PublicKey) (options : SignaturesForAddressOptions)
| Call_getConfirmedTransaction (c : Connection) (sig : string)
| Call_getTokenAccountsByOwner
    (c : Connection) (owner : PublicKey) (filter : TokenAccountsFilter)
| Read_element (len index : nat).

(** The handle a logged request went through; [None] for an entry that
    is not a request. *)
Definition event_connection (ev : Event) : option Connection :=
  match ev with
  | Call_getBalance c _ => Some c
  | Call_getSignaturesForAddress c _ _ => Some c
  | Call_getConfirmedTransaction c _ => Some c
  | Call_getTokenAccountsByOwner c _ _ => Some c
  | Read_element _ _ => None
  end.

Definition is_request (ev : Event) : bool :=
  match event_connection ev with Some _ => true | None => false end.

Definition is_getConfirmedTransaction (ev : Event) : bool :=
  match ev with Call_getConfirmedTransaction _ _ => true | _ => false end.

Definition in_bounds (ev : Event) : bool :=
  match ev with
  | Read_element len index => Nat.ltb index len
  | _ => true
  end.

(** *** The monad of handlers *)

(** An [async] body: from the log so far to the extended log and either
    a thrown value (the promise rejects) or a result (it resolves). *)
Definition Async (A : Type) : Type :=
  list Event -> list Event * (Thrown + A).

Definition Async_ret {A} (a : A) : Async A :=
  fun log => (log, inr a).

Definition Async_bind {A B} (m : Async A) (k : A -> Async B) : Async B :=
  fun log =>
    match m log with
    | (log', inl error) => (log', inl error)
    | (log', inr a) => k a log'
    end.

Definition Async_throw {A} (error : Thrown) : Async A :=
  fun log => (log, inl error).

(** [try { body } catch (error) { handler }] *)
Definition Async_catch {A} (body : Async A) (handler : Thrown -> Async A)
  : Async A :=
  fun log =>
    match body log with
    | (log', inl error) => handler error log'
    | (log', inr a) => (log', inr a)
    end.

#[local] Instance Monad_Async : Monad Async :=
  {| ret := @Async_ret; bind := @Async_bind |}.

#[local] Instance Exc_Async : MonadExc Thrown Async :=
  {| raise := @Async_throw; catch := @Async_catch |}.

(** A call that sends nothing ([new PublicKey(..)], [JSON.stringify]):
    it returns or throws, the log is unchanged. *)
Definition call {A} (answer : Thrown + A) : Async A :=
  fun log => (log, answer).

(** [await connection.method(..)]: the request is logged, then the
    promise resolves or rejects as the endpoint answers. *)
Definition await {A} (request : Event) (answer : Thrown + A) : Async A :=
  fun log => (log ++ [request], answer).

(** [array[index]]: the read is logged; out of range it yields
    [undefined], here [None]. *)
Definition element {A} (array : list A) (index : nat) : Async (option A) :=
  fun log => (log ++ [Read_element (length array) index],
              inr (nth_error array index)).

(** [entry.signature], where [entry] may be [undefined]. *)
Definition get_signature (w : Web3) (entry : option ConfirmedSignatureInfo)
  : Async string :=
  match entry with
  | Some info => ret (signature w info)
  | None =>
      raise (JsError "TypeError"
        "Cannot read properties of undefined (reading 'signature')")
  end.

(** [JSON.stringify(transaction)], [transaction] possibly [null]. *)
Definition JSON_stringify_transaction
    (w : Web3) (transaction : option ConfirmedTransaction) : Async string :=
  match transaction with
  | None => ret "null"
  | Some t => call (stringify_transaction w t)
  end.

Definition run {A} (m : Async A) : list Event * (Thrown + A) := m [].

Variable w : Web3.

(** *** The handlers, in the order of [src/index.ts] *)

Definition get_soon_testnet_balance (args : Args) : Async CallToolResult :=
  key <- call (PublicKey_new w (address args)) ;;
  balance <- await (Call_getBalance connectionTestnet key)
                   (getBalance w connectionTestnet key) ;;
  ret (text_result ("Balance: " ++ Number_toString w balance)).

Definition get_soon_testnet_last_transaction (args : Args)
  : Async CallToolResult :=
  catch
    (key <- call (PublicKey_new w (address args)) ;;
     signatures <-
       await (Call_getSignaturesForAddress connectionTestnet key
                (mkOptions (Some 1%Z)))
             (getSignaturesForAddress w connectionTestnet key
                (mkOptions (Some 1%Z))) ;;
     if Nat.eqb (length signatures) 0 then
       ret (text_result "No transactions found for this address")
     else
       entry <- element signatures 0 ;;
       latestSignature <- get_signature w entry ;;
       transaction <-
         await (Call_getConfirmedTransaction connectionTestnet latestSignature)
               (getConfirmedTransaction w connectionTestnet latestSignature) ;;
       json <- JSON_stringify_transaction w transaction ;;
       ret (text_result json))
    (fun error =>
       ret (text_result ("Error getting transaction: " ++ error_text error))).

Definition get_soon_testnet_account_tokens (args : Args)
  : Async CallToolResult :=
  catch
    (owner <- call (PublicKey_new w (address args)) ;;
     program <- call (PublicKey_new w
              "TokenkegQfeZyiNwAJbNbGKPFXCWuBvf9Ss623VQ5DA") ;;
     tokens <-
       await (Call_getTokenAccountsByOwner connectionTestnet owner
                (programId program))
             (getTokenAccountsByOwner w connectionTestnet owner
                (programId program)) ;;
     json <- call (stringify_tokens w tokens) ;;
     ret (text_result json))
    (fun error =>
       ret (text_result ("Error getting tokens: " ++ error_text error))).

Definition get_soon_mainnet_balance (args : Args) : Async CallToolResult :=
  key <- call (PublicKey_new w (address args)) ;;
  balance <- await (Call_getBalance connectionMainnet key)
                   (getBalance w connectionMainnet key) ;;
  ret (text_result ("Balance: " ++ Number_toString w balance)).

Definition get_soon_mainnet_last_transaction (args : Args)
  : Async CallToolResult :=
  catch
    (key <- call (PublicKey_new w (address args)) ;;
     signatures <-
       await (Call_getSignaturesForAddress connectionMainnet key
                (mkOptions (Some 1%Z)))
             (getSignaturesForAddress w connectionMainnet key
                (mkOptions (Some 1%Z))) ;;
     if Nat.eqb (length signatures) 0 then
       ret (text_result "No transactions found for this address")
     else
       entry <- element signatures 0 ;;
       latestSignature <- get_signature w entry ;;
       transaction <-
         await (Call_getConfirmedTransaction connectionMainnet latestSignature)
               (getConfirmedTransaction w connectionMainnet latestSignature) ;;
       json <- JSON_stringify_transaction w transaction ;;
       ret (text_result json))
    (fun error =>
       ret (text_result ("Error getting transaction: " ++ error_text error))).

Definition get_soon_mainnet_account_tokens (args : Args)
  : Async CallToolResult :=
  catch
    (owner <- call (PublicKey_new w (address args)) ;;
     program <- call (PublicKey_new w
              "TokenkegQfeZyiNwAJbNbGKPFXCWuBvf9Ss623VQ5DA") ;;
     tokens <-
       await (Call_getTokenAccountsByOwner connectionMainnet owner
                (programId program))
             (getTokenAccountsByOwner w connectionMainnet owner
                (programId program)) ;;
     json <- call (stringify_tokens w tokens) ;;
     ret (text_result json))
    (fun error =>
       ret (text_result ("Error getting tokens: " ++ error_text error))).

(** *** The registry built by the six [server.tool] calls *)

Record RegisteredTool : Type := mkTool {
  tool_name : string;
  description : string;
  callback : Args -> Async CallToolResult
}.

Definition server_tools : list RegisteredTool :=
  [ mkTool "get-soon-testnet-balance"
      "Get the balance of a address on the Soon testnet"
      get_soon_testnet_balance;
    mkTool "get-soon-testnet-last-transaction"
      "Get the last transaction of an address on the Soon testnet"
      get_soon_testnet_last_transaction;
    mkTool "get-soon-testnet-account-tokens"
      "Get the tokens of a address on the Soon testnet"
      get_soon_testnet_account_tokens;
    mkTool "get-soon-mainnet-balance"
      "Get the balance of a address on the Soon mainnet"
      get_soon_mainnet_balance;
    mkTool "get-soon-mainnet-last-transaction"
      "Get the last transaction of an address on the Soon mainnet"
      get_soon_mainnet_last_transaction;
    mkTool "get-soon-mainnet-account-tokens"
      "Get the tokens of a address on the Soon mainnet"
      get_soon_mainnet_account_tokens ].

End Handlers.

Arguments programId {PublicKey} key.
Arguments mint {PublicKey} key.
Arguments Call_getBalance {PublicKey} c key.
Arguments Call_getSignaturesForAddress {PublicKey} c key options.
Arguments Call_getConfirmedTransaction {PublicKey} c sig.
Arguments Call_getTokenAccountsByOwner {PublicKey} c owner filter.
Arguments Read_element {PublicKey} len index.
Arguments event_connection {PublicKey} ev.
Arguments is_request {PublicKey} ev.
Arguments is_getConfirmedTransaction {PublicKey} ev.
Arguments in_bounds {PublicKey} ev.
Arguments run {PublicKey A} m.
Arguments PublicKey_new {_ _ _ _ _} w _.
Arguments getBalance {_ _ _ _ _} w _ _.
Arguments getSignaturesForAddress {_ _ _ _ _} w _ _ _.
Arguments getConfirmedTransaction {_ _ _ _ _} w _ _.
Arguments getTokenAccountsByOwner {_ _ _ _ _} w _ _ _.
Arguments signature {_ _ _ _ _} w _.
Arguments Number_toString {_ _ _ _ _} w _.
Arguments stringify_transaction {_ _ _ _ _} w _.
Arguments stringify_tokens {_ _ _ _ _} w _.
Arguments get_soon_testnet_balance {_ _ _ _ _} w args.
Arguments get_soon_testnet_last_transaction {_ _ _ _ _} w args.
Arguments get_soon_testnet_account_tokens {_ _ _ _ _} w args.
Arguments get_soon_mainnet_balance {_ _ _ _ _} w args.
Arguments get_soon_mainnet_last_transaction {_ _ _ _ _} w args.
Arguments get_soon_mainnet_account_tokens {_ _ _ _ _} w args.
Arguments server_tools {_ _ _ _ _} w.
Arguments tool_name {PublicKey} r.
Arguments description {PublicKey} r.
Arguments callback {PublicKey} r args.

(** ** The two variants of each tool family *)

Inductive Network : Type := Testnet | Mainnet.

Definition connection_of (n : Network) : Connection :=
  match n with
  | Testnet => connectionTestnet
  | Mainnet => connectionMainnet
  end.

Section Families.

Context {PublicKey Number ConfirmedSignatureInfo
         ConfirmedTransaction TokenAccounts : Type}.
Variable w : Web3 PublicKey Number ConfirmedSignatureInfo
                  ConfirmedTransaction TokenAccounts.

Definition balance_tool (n : Network) :=
  match n with
  | Testnet => get_soon_testnet_balance w
  | Mainnet => get_soon_mainnet_balance w
  end.

Definition last_transaction_tool (n : Network) :=
  match n with
  | Testnet => get_soon_testnet_last_transaction w
  | Mainnet => get_soon_mainnet_last_transaction w
  end.

Definition account_tokens_tool (n : Network) :=
  match n with
  | Testnet => get_soon_testnet_account_tokens w
  | Mainnet => get_soon_mainnet_account_tokens w
  end.

(** [last_transaction_throws n args error]: on [args], a call made by
    the last-transaction handler of network [n] throws [error] (all the
    calls before it having returned). *)
Inductive last_transaction_throws (n : Network) (args : Args)
  : Thrown -> Prop :=
| LT_PublicKey error :
    PublicKey_new w (address args) = inl error ->
    last_transaction_throws n args error
| LT_getSignaturesForAddress key error :
    PublicKey_new w (address args) = inr key ->
    getSignaturesForAddress w (connection_of n) key (mkOptions (Some 1%Z))
      = inl error ->
    last_transaction_throws n args error
| LT_getConfirmedTransaction key info rest error :
    PublicKey_new w (address args) = inr key ->
    getSignaturesForAddress w (connection_of n) key (mkOptions (Some 1%Z))
      = inr (info :: rest) ->
    getConfirmedTransaction w (connection_of n) (signature w info)
      = inl error ->
    last_transaction_throws n args error
| LT_stringify key info rest transaction error :
    PublicKey_new w (address args) = inr key ->
    getSignaturesForAddress w (connection_of n) key (mkOptions (Some 1%Z))
      = inr (info :: rest) ->
    getConfirmedTransaction w (connection_of n) (signature w info)
      = inr (Some transaction) ->
    stringify_transaction w transaction = inl error ->
    last_transaction_throws n args error.

(** The same for the account-tokens handler of network [n]. *)
Inductive account_tokens_throws (n : Network) (args : Args)
  : Thrown -> Prop :=
| AT_PublicKey error :
    PublicKey_new w (address args) = inl error ->
    account_tokens_throws n args error
| AT_programId owner error :
    PublicKey_new w (address args) = inr owner ->
    PublicKey_new w "TokenkegQfeZyiNwAJbNbGKPFXCWuBvf9Ss623VQ5DA"
      = inl error ->
    account_tokens_throws n args error
| AT_getTokenAccountsByOwner owner program error :
    PublicKey_new w (address args) = inr owner ->
    PublicKey_new w "TokenkegQfeZyiNwAJbNbGKPFXCWuBvf9Ss623VQ5DA"
      = inr program ->
    getTokenAccountsByOwner w (connection_of n) owner (programId program)
      = inl error ->
    account_tokens_throws n args error
| AT_stringify owner program tokens error :
    PublicKey_new w (address args) = inr owner ->
    PublicKey_new w "TokenkegQfeZyiNwAJbNbGKPFXCWuBvf9Ss623VQ5DA"
      = inr program ->
    getTokenAccountsByOwner w (connection_of n) owner (programId program)
      = inr tokens ->
    stringify_tokens w tokens = inl error ->
    account_tokens_throws n args error.

(** What the serialization of the value that [getConfirmedTransaction]
    resolved to is: [JSON.stringify(null)] is the string [null]. *)
Definition serialized (transaction : option ConfirmedTransaction)
  : Thrown + string :=
  match transaction with
  | None => inr "null"
  | Some t => stringify_transaction w t
  end.

End Families.

(** ** A test double of the client library

    Keys are kept as their base58 text, balances as integers, and every
    request is answered from a fixed scenario, whatever its arguments. *)
Module Mock.

Definition base58_alphabet : string :=
  "123456789ABCDEFGHJKLMNPQRSTUVWXYZabcdefghijkmnopqrstuvwxyz".

Fixpoint all_in (alphabet s : string) : bool :=
  match s with
  | EmptyString => true
  | String ch rest =>
      includes (String ch EmptyString) alphabet && all_in alphabet rest
  end.

(** Accepts base58 text of 32 to 44 characters, as a 32-byte key has. *)
Definition new_key (s : string) : Thrown + string :=
  if all_in base58_alphabet s
     && Nat.leb 32 (String.length s) && Nat.leb (String.length s) 44
  then inr s
  else inl (JsError "Error" "Invalid public key input").

Record SignatureInfo : Type := mkInfo {
  info_signature : string;
  slot : Z
}.

Record Scenario : Type := mkScenario {
  balance : Thrown + Z;
  signatures : Thrown + list SignatureInfo;
  transaction : Thrown + option string;
  tokens : Thrown + list string
}.

Definition web3 (s : Scenario)
  : Web3 string Z SignatureInfo string (list string) :=
  {| PublicKey_new := new_key;
     getBalance := fun _ _ => balance s;
     getSignaturesForAddress := fun _ _ _ => signatures s;
     getConfirmedTransaction := fun _ _ => transaction s;
     getTokenAccountsByOwner := fun _ _ _ => tokens s;
     signature := info_signature;
     Number_toString := Z_toString;
     stringify_transaction := fun t => inr t;
     stringify_tokens := fun l => inr (String.concat "," l) |}.

Definition wallet : string := "11111111111111111111111111111111".

Definition funded : Scenario :=
  {| balance := inr 2500%Z;
     signatures := inr [ mkInfo "5Sig" 7%Z ];
     transaction := inr (Some "{}");
     tokens := inr [ "a"; "b" ] |}.

Definition fresh : Scenario :=
  {| balance := inr 0%Z;
     signatures := inr [];
     transaction := inr None;
     tokens := inr [] |}.

Definition offline : Scenario :=
  {| balance := inl (JsError "TypeError" "fetch failed");
     signatures := inl (JsError "TypeError" "fetch failed");
     transaction := inl (JsError "TypeError" "fetch failed");
     tokens := inl (JsValue "503") |}.

(** The signature query answers, the transaction query does not. *)
Definition half_online : Scenario :=
  {| balance := inr 2500%Z;
     signatures := inr [ mkInfo "5Sig" 7%Z ];
     transaction := inl (JsError "Error" "Method not found");
     tokens := inr [] |}.

(** The newest signature is listed, its transaction is not kept. *)
Definition pruned : Scenario :=
  {| balance := inr 2500%Z;
     signatures := inr [ mkInfo "5Sig" 7%Z ];
     transaction := inr None;
     tokens := inr [] |}.

End Mock.

(** ** Comparing the two variants of a tool *)

(** The same log entry, its request sent through handle [c] instead. *)
Definition retarget {PublicKey} (c : Connection) (ev : Event PublicKey)
  : Event PublicKey :=
  match ev with
  | Call_getBalance _ key => Call_getBalance c key
  | Call_getSignaturesForAddress _ key options =>
      Call_getSignaturesForAddress c key options
  | Call_getConfirmedTransaction _ sig => Call_getConfirmedTransaction c sig
  | Call_getTokenAccountsByOwner _ owner filter =>
      Call_getTokenAccountsByOwner c owner filter
  | Read_element len index => Read_element len index
  end.

(** The two endpoints answer every request alike. *)
Definition same_answers {PublicKey Number ConfirmedSignatureInfo
                         ConfirmedTransaction TokenAccounts : Type}
    (w : Web3 PublicKey Number ConfirmedSignatureInfo
              ConfirmedTransaction TokenAccounts) : Prop :=
  (forall key,
      getBalance w connectionTestnet key = getBalance w connectionMainnet key)
  /\ (forall key options,
        getSignaturesForAddress w connectionTestnet key options
        = getSignaturesForAddress w connectionMainnet key options)
  /\ (forall sig,
        getConfirmedTransaction w connectionTestnet sig
        = getConfirmedTransaction w connectionMainnet sig)
  /\ (forall owner filter,
        getTokenAccountsByOwner w connectionTestnet owner filter
        = getTokenAccountsByOwner w connectionMainnet owner filter).

(** ** The server object and the start of the process *)

(** The argument of [new McpServer({ name, version, capabilities })]. *)
Record ServerInfo : Type := mkServerInfo {
  name : string;
  version : string;
  capabilities : list string
}.

Definition server : ServerInfo :=
  {| name := "svm-mcp";
     version := "0.0.1";
     capabilities :=
       [ "get-soon-testnet-balance";
         "get-soon-testnet-last-transaction";
         "get-soon-testnet-account-tokens";
         "get-soon-mainnet-balance";
         "get-soon-mainnet-last-transaction";
         "get-soon-mainnet-account-tokens" ] |}.

(** One [console.error(message)] or [console.error(message, value)]. *)
Inductive Diagnostic : Type :=
| Line (message : string) (value : option Thrown).

(** How a piece of the start-up code ends: it returns, it throws (the
    promise rejects), or [process.exit(code)] ends the process. *)
Inductive Completion (A : Type) : Type :=
| Returned (a : A)
| Threw (error : Thrown)
| Exited (code : Z).

Arguments Returned {A} a.
Arguments Threw {A} error.
Arguments Exited {A} code.

Section Startup.

(** [StdioServerTransport] and [server.connect] belong to the protocol
    library: the constructor and the connection either return or throw.
    [console.error] and [process.exit] are taken not to throw. *)
Variable Transport : Type.

Record Sdk : Type := mkSdk {
  StdioServerTransport_new : Thrown + Transport;
  server_connect : Transport -> Thrown + unit
}.

(** From the lines written to the error stream so far to the lines
    written after, and how the code ended. *)
Definition Process (A : Type) : Type :=
  list Diagnostic -> list Diagnostic * Completion A.

Definition Process_ret {A} (a : A) : Process A :=
  fun stderr => (stderr, Returned a).

Definition Process_bind {A B} (m : Process A) (k : A -> Process B)
  : Process B :=
  fun stderr =>
    match m stderr with
    | (stderr', Returned a) => k a stderr'
    | (stderr', Threw error) => (stderr', Threw error)
    | (stderr', Exited code) => (stderr', Exited code)
    end.

Definition Process_throw {A} (error : Thrown) : Process A :=
  fun stderr => (stderr, Threw error).

(** [try { body } catch (error) { handler }], also [promise.catch(handler)]:
    a process that has exited runs no handler. *)
Definition Process_catch {A} (body : Process A) (handler : Thrown -> Process A)
  : Process A :=
  fun stderr =>
    match body stderr with
    | (stderr', Threw error) => handler error stderr'
    | (stderr', Returned a) => (stderr', Returned a)
    | (stderr', Exited code) => (stderr', Exited code)
    end.

#[local] Instance Monad_Process : Monad Process :=
  {| ret := @Process_ret; bind := @Process_bind |}.

#[local] Instance Exc_Process : MonadExc Thrown Process :=
  {| raise := @Process_throw; catch := @Process_catch |}.

Definition console_error (message : string) (value : option Thrown)
  : Process unit :=
  fun stderr => (stderr ++ [Line message value], Returned tt).

Definition process_exit {A} (code : Z) : Process A :=
  fun stderr => (stderr, Exited code).

(** A library call of the start-up code: it returns or throws. *)
Definition sdk_call {A} (answer : Thrown + A) : Process A :=
  fun stderr =>
    (stderr, match answer with
             | inl error => Threw error
             | inr a => Returned a
             end).

Variable sdk : Sdk.

(** [async function main()] *)
Definition main : Process unit :=
  catch
    (console_error "Starting MCP server..." None ;;
     transport <- sdk_call (StdioServerTransport_new sdk) ;;
     console_error "Transport initialized, connecting to server..." None ;;
     sdk_call (server_connect sdk transport) ;;
     console_error "Server connection established successfully" None)
    (fun error =>
       console_error "There was an error connecting to the server:"
         (Some error) ;;
       process_exit 1%Z).

(** [main().catch((err) => { ... })], the last statement of the module. *)
Definition start : Process unit :=
  catch main
    (fun err =>
       console_error "There was an error starting the server:" (Some err) ;;
       process_exit 1%Z).

Definition run_process {A} (m : Process A) : list Diagnostic * Completion A :=
  m [].

End Startup.

Arguments StdioServerTransport_new {Transport} s.
Arguments server_connect {Transport} s _.
Arguments main {Transport} sdk.
Arguments start {Transport} sdk.
Arguments run_process {A} m.

(** The message of a diagnostic line. *)
Definition diagnostic_message (d : Diagnostic) : string :=
  match d with Line message _ => message end.

(** Test doubles of the protocol library: one that connects, one whose
    transport cannot be built, one whose connection is refused. *)
Module MockSdk.

Definition connects : Sdk unit :=
  {| StdioServerTransport_new := inr tt;
     server_connect := fun _ => inr tt |}.

Definition no_transport : Sdk unit :=
  {| StdioServerTransport_new := inl (JsError "Error" "stdin is closed");
     server_connect := fun _ => inr tt |}.

Definition refused : Sdk unit :=
  {| StdioServerTransport_new := inr tt;
     server_connect := fun _ => inl (JsValue "already connected") |}.

End MockSdk.

(** ** Predicates on outcomes and logs *)

(** Every handler that resolves does so with one text block. *)
Definition one_text_block (outcome : Thrown + CallToolResult) : Prop :=
  match outcome with
  | inl _ => True
  | inr result =>
      exists payload,
        content result = [ {| type := "text"; text := payload |} ]
  end.

(** The requests of a handler of network [n] go through [connection_of n]. *)
Definition through (c : Connection) {PublicKey} (log : list (Event PublicKey)) : Prop :=
  forall ev c', In ev log -> event_connection ev = Some c' -> c' = c.

(** ** Properties of the handlers *)

(** Unfolds a handler down to the answers of the library. *)
Ltac unfold_tool :=
  cbv [run balance_tool last_transaction_tool account_tokens_tool
       get_soon_testnet_balance get_soon_mainnet_balance
       get_soon_testnet_last_transaction get_soon_mainnet_last_transaction
       get_soon_testnet_account_tokens get_soon_mainnet_account_tokens
       bind ret raise catch Monad_Async Exc_Async
       Async_bind Async_ret Async_throw Async_catch
       call await element get_signature JSON_stringify_transaction
       connection_of].

(** Case analysis on the next answer the handler waits for. *)
Ltac next_answer :=
  match goal with
  | H : ?x = _ |- context [match ?x with _ => _ end] => rewrite H
  | |- context [Nat.eqb (length ?l) 0] => destruct l eqn:?
  | |- context [match ?x with inl _ => _ | inr _ => _ end] =>
      destruct x eqn:?
  | |- context [match ?x with Some _ => _ | None => _ end] =>
      destruct x eqn:?
  | |- context [match ?x with nil => _ | cons _ _ => _ end] =>
      destruct x eqn:?
  end; cbn [app length Nat.eqb nth_error fst snd].

Section Properties.

Context {PublicKey Number ConfirmedSignatureInfo
         ConfirmedTransaction TokenAccounts : Type}.
Variable w : Web3 PublicKey Number ConfirmedSignatureInfo
                  ConfirmedTransaction TokenAccounts.

(** *** Helper lemmas, shared by the claims below *)

Lemma error_text_message name message :
  error_text (JsError name message) = message.
Proof. reflexivity. Qed.

Lemma connections_differ : connectionTestnet <> connectionMainnet.
Proof. discriminate. Qed.

(** Each registered name carries exactly one of the two network words. *)
Lemma tool_names_name_one_network :
  Forall (fun tool =>
            xorb (includes "testnet" (tool_name tool))
                 (includes "mainnet" (tool_name tool)) = true)
         (server_tools w).
Proof. repeat constructor. Qed.

Lemma balance_one_text_block n args :
  one_text_block (snd (run (balance_tool w n args))).
Proof.
  destruct n; unfold_tool; repeat next_answer;
    cbn; eauto.
Qed.

Lemma last_transaction_one_text_block n args :
  one_text_block (snd (run (last_transaction_tool w n args))).
Proof.
  destruct n; unfold_tool; repeat next_answer;
    cbn; eauto.
Qed.

Lemma account_tokens_one_text_block n args :
  one_text_block (snd (run (account_tokens_tool w n args))).
Proof.
  destruct n; unfold_tool; repeat next_answer;
    cbn; eauto.
Qed.

Ltac solve_through :=
  intros ev c' Hin Hc; cbn [In] in Hin;
  repeat match goal with
         | H : _ \/ _ |- _ => destruct H
         | H : False |- _ => destruct H
         | H : _ = ev |- _ => subst ev; cbn in Hc
         end;
  congruence.

Lemma balance_through n args :
  through (connection_of n) (fst (run (balance_tool w n args))).
Proof.
  destruct n; unfold_tool; repeat next_answer; solve_through.
Qed.

Lemma last_transaction_through n args :
  through (connection_of n) (fst (run (last_transaction_tool w n args))).
Proof.
  destruct n; unfold_tool; repeat next_answer; solve_through.
Qed.

Lemma account_tokens_through n args :
  through (connection_of n) (fst (run (account_tokens_tool w n args))).
Proof.
  destruct n; unfold_tool; repeat next_answer; solve_through.
Qed.

Lemma last_transaction_caught n args error :
  last_transaction_throws w n args error ->
  snd (run (last_transaction_tool w n args))
  = inr (text_result ("Error getting transaction: " ++ error_text error)).
Proof.
  intros H; destruct H, n; unfold_tool; cbn [connection_of] in *;
    repeat next_answer; reflexivity.
Qed.

Lemma account_tokens_caught n args error :
  account_tokens_throws w n args error ->
  snd (run (account_tokens_tool w n args))
  = inr (text_result ("Error getting tokens: " ++ error_text error)).
Proof.
  intros H; destruct H, n; unfold_tool; cbn [connection_of] in *;
    repeat next_answer; reflexivity.
Qed.

(** *** The claims *)

(** C1. In the last-transaction and the account-tokens family, on either
    network: when a call made by the handler throws, the handler resolves
    with one text block whose text is "Error getting transaction: "
    (resp. "Error getting tokens: ") followed by the text of the thrown
    value, which for an [Error] is its message. *)
Theorem thrown_call_becomes_error_text n args error :
  (last_transaction_throws w n args error ->
     snd (run (last_transaction_tool w n args))
     = inr {| content :=
                [ {| type := "text";
                     text := "Error getting transaction: "
                             ++ error_text error |} ] |})
  /\ (account_tokens_throws w n args error ->
     snd (run (account_tokens_tool w n args))
     = inr {| content :=
                [ {| type := "text";
                     text := "Error getting tokens: "
                             ++ error_text error |} ] |})
  /\ (forall name message,
        error = JsError name message -> error_text error = message).
Proof.
  repeat split.
  - apply last_transaction_caught.
  - apply account_tokens_caught.
  - intros name message ->. apply error_text_message.
Qed.

(** C2. When the signature query answers with the empty list, the
    last-transaction handler resolves with the one text block
    "No transactions found for this address"; the only request it sent
    is the signature query, so no transaction-detail request was sent. *)
Theorem no_signature_no_transaction_request n args key :
  PublicKey_new w (address args) = inr key ->
  getSignaturesForAddress w (connection_of n) key (mkOptions (Some 1%Z))
    = inr [] ->
  snd (run (last_transaction_tool w n args))
  = inr {| content :=
             [ {| type := "text";
                  text := "No transactions found for this address" |} ] |}
  /\ filter is_getConfirmedTransaction
       (fst (run (last_transaction_tool w n args))) = []
  /\ fst (run (last_transaction_tool w n args))
     = [ Call_getSignaturesForAddress (connection_of n) key
           (mkOptions (Some 1%Z)) ].
Proof.
  intros Hkey Hsigs; destruct n; unfold_tool; cbn [connection_of] in *;
    repeat next_answer; repeat split.
Qed.

(** C3, as amended.  When the signature query answers with at least one
    entry, the requests of the last-transaction handler are, in order,
    the signature query with [limit = 1] and one transaction-detail
    query for the signature of the first entry.  If that query resolves
    and the serialization returns, the handler resolves with one text
    block holding the serialization; if either throws, with the
    "Error getting transaction: " block. *)
Theorem last_transaction_requests_and_result n args key info rest :
  PublicKey_new w (address args) = inr key ->
  getSignaturesForAddress w (connection_of n) key (mkOptions (Some 1%Z))
    = inr (info :: rest) ->
  filter is_request (fst (run (last_transaction_tool w n args)))
  = [ Call_getSignaturesForAddress (connection_of n) key
        (mkOptions (Some 1%Z));
      Call_getConfirmedTransaction (connection_of n) (signature w info) ]
  /\ (forall transaction json,
        getConfirmedTransaction w (connection_of n) (signature w info)
          = inr transaction ->
        serialized w transaction = inr json ->
        snd (run (last_transaction_tool w n args))
        = inr {| content := [ {| type := "text"; text := json |} ] |})
  /\ (forall error,
        getConfirmedTransaction w (connection_of n) (signature w info)
          = inl error
        \/ (exists transaction,
              getConfirmedTransaction w (connection_of n) (signature w info)
                = inr transaction
              /\ serialized w transaction = inl error) ->
        snd (run (last_transaction_tool w n args))
        = inr {| content :=
                   [ {| type := "text";
                        text := "Error getting transaction: "
                                ++ error_text error |} ] |}).
Proof.
  intros Hkey Hsigs. split; [| split].
  - destruct n; unfold_tool; cbn [connection_of] in *;
      repeat next_answer; reflexivity.
  - intros transaction json Htx Hjson.
    destruct n, transaction; cbn [serialized] in Hjson;
      unfold_tool; cbn [connection_of] in *;
      repeat next_answer;
      first [ reflexivity | injection Hjson as <-; reflexivity ].
  - intros error [Htx | [transaction [Htx Hjson]]].
    + apply last_transaction_caught.
      eapply LT_getConfirmedTransaction; eassumption.
    + destruct transaction as [t |]; cbn [serialized] in Hjson;
        [| discriminate].
      apply last_transaction_caught.
      eapply LT_stringify; eassumption.
Qed.

(** C4. When the address is accepted by the key constructor and the
    balance query resolves, the balance handler resolves with one text
    block whose text is "Balance: " followed by the printed balance. *)
Theorem balance_text n args key balance :
  PublicKey_new w (address args) = inr key ->
  getBalance w (connection_of n) key = inr balance ->
  snd (run (balance_tool w n args))
  = inr {| content :=
             [ {| type := "text";
                  text := "Balance: " ++ Number_toString w balance |} ] |}.
Proof.
  intros Hkey Hbal; destruct n; unfold_tool; cbn [connection_of] in *;
    repeat next_answer; reflexivity.
Qed.

(** C5. The balance handlers catch nothing: a value thrown by the key
    constructor (a malformed address) or by the balance query is the
    outcome of the handler, which then resolves with no result at all;
    in the first case no request has been sent. *)
Theorem balance_errors_propagate n args error :
  (PublicKey_new w (address args) = inl error ->
     run (balance_tool w n args) = ([], inl error))
  /\ (forall key,
        PublicKey_new w (address args) = inr key ->
        getBalance w (connection_of n) key = inl error ->
        run (balance_tool w n args)
        = ([ Call_getBalance (connection_of n) key ], inl error))
  /\ ((PublicKey_new w (address args) = inl error
       \/ exists key, PublicKey_new w (address args) = inr key
                      /\ getBalance w (connection_of n) key = inl error) ->
      forall result, snd (run (balance_tool w n args)) <> inr result).
Proof.
  assert (Hkey : PublicKey_new w (address args) = inl error ->
                 run (balance_tool w n args) = ([], inl error)).
  { intros H; destruct n; unfold_tool; repeat next_answer; reflexivity. }
  assert (Hbal : forall key,
             PublicKey_new w (address args) = inr key ->
             getBalance w (connection_of n) key = inl error ->
             run (balance_tool w n args)
             = ([ Call_getBalance (connection_of n) key ], inl error)).
  { intros key H1 H2; destruct n; unfold_tool; cbn [connection_of] in *;
      repeat next_answer; reflexivity. }
  repeat split; auto.
  intros [H | [key [H1 H2]]] result.
  - rewrite (Hkey H). discriminate.
  - rewrite (Hbal key H1 H2). discriminate.
Qed.

(** C6. On either network and for every input, a token-account request
    in the log of the account-tokens handler carries the filter
    [{ programId: key }] where [key] is the key built from
    TokenkegQfeZyiNwAJbNbGKPFXCWuBvf9Ss623VQ5DA; and when both keys are
    built, that request is the one request the handler sends. *)
Theorem account_tokens_fixed_filter n args :
  (forall c owner filter,
      In (Call_getTokenAccountsByOwner c owner filter)
         (fst (run (account_tokens_tool w n args))) ->
      exists program,
        PublicKey_new w "TokenkegQfeZyiNwAJbNbGKPFXCWuBvf9Ss623VQ5DA"
          = inr program
        /\ filter = programId program)
  /\ (forall owner program,
        PublicKey_new w (address args) = inr owner ->
        PublicKey_new w "TokenkegQfeZyiNwAJbNbGKPFXCWuBvf9Ss623VQ5DA"
          = inr program ->
        fst (run (account_tokens_tool w n args))
        = [ Call_getTokenAccountsByOwner (connection_of n) owner
              (programId program) ]).
Proof.
  split.
  - intros c owner filter.
    destruct n; unfold_tool;
      repeat next_answer; cbn [In];
      intros Hin;
      repeat match goal with
             | H : _ \/ _ |- _ => destruct H
             | H : False |- _ => destruct H
             | H : Call_getTokenAccountsByOwner _ _ _ = _ |- _ =>
                 injection H as <- <- <-
             end;
      eexists; split; reflexivity.
  - intros owner program Howner Hprogram.
    destruct n; unfold_tool;
      repeat next_answer; reflexivity.
Qed.

(** C7. Whenever a registered handler resolves with a result, be it on
    its success path, its empty-result path or its catch path, the
    [content] of the result is one block, of type "text", with a string
    as text. *)
Theorem every_result_is_one_text_block tool args result :
  In tool (server_tools w) ->
  snd (run (callback tool args)) = inr result ->
  exists payload : string,
    content result = [ {| type := "text"; text := payload |} ]
    /\ length (content result) = 1.
Proof.
  intros Hin Hres.
  assert (Hone : one_text_block (snd (run (callback tool args)))).
  { cbn [server_tools In] in Hin.
    destruct Hin as [<- | [<- | [<- | [<- | [<- | [<- | []]]]]]];
      cbn [callback].
    - apply (balance_one_text_block Testnet).
    - apply (last_transaction_one_text_block Testnet).
    - apply (account_tokens_one_text_block Testnet).
    - apply (balance_one_text_block Mainnet).
    - apply (last_transaction_one_text_block Mainnet).
    - apply (account_tokens_one_text_block Mainnet). }
  rewrite Hres in Hone. destruct Hone as [payload Hpayload].
  exists payload. rewrite Hpayload. split; reflexivity.
Qed.

(** C8. Every request in the log of a registered handler whose name
    contains "testnet" went through [connectionTestnet], and every
    request of one whose name contains "mainnet" through
    [connectionMainnet]; the two handles differ, so no handler reaches
    the endpoint of the other network. *)
Theorem requests_stay_on_their_network tool args ev c :
  In tool (server_tools w) ->
  In ev (fst (run (callback tool args))) ->
  event_connection ev = Some c ->
  (includes "testnet" (tool_name tool) = true ->
     c = connectionTestnet /\ c <> connectionMainnet)
  /\ (includes "mainnet" (tool_name tool) = true ->
     c = connectionMainnet /\ c <> connectionTestnet).
Proof.
  intros Htool Hev Hc.
  cbn [server_tools In] in Htool.
  destruct Htool as [<- | [<- | [<- | [<- | [<- | [<- | []]]]]]];
    cbn [callback tool_name] in *;
    split; intros Hname;
    try (vm_compute in Hname; discriminate).
  - rewrite (balance_through Testnet args ev c Hev Hc).
    split; [reflexivity | discriminate].
  - rewrite (last_transaction_through Testnet args ev c Hev Hc).
    split; [reflexivity | discriminate].
  - rewrite (account_tokens_through Testnet args ev c Hev Hc).
    split; [reflexivity | discriminate].
  - rewrite (balance_through Mainnet args ev c Hev Hc).
    split; [reflexivity | discriminate].
  - rewrite (last_transaction_through Mainnet args ev c Hev Hc).
    split; [reflexivity | discriminate].
  - rewrite (account_tokens_through Mainnet args ev c Hev Hc).
    split; [reflexivity | discriminate].
Qed.

(** C9. In the last-transaction and the account-tokens family, on either
    network: when the key constructor throws on the address, the handler
    sends no request and resolves with the one text block
    "Error getting transaction: " (resp. "Error getting tokens: ")
    followed by the text of the thrown value; the outcome is a result,
    not the thrown value. *)
Theorem malformed_address_is_caught n args error :
  PublicKey_new w (address args) = inl error ->
  run (last_transaction_tool w n args)
  = ([], inr {| content :=
                  [ {| type := "text";
                       text := "Error getting transaction: "
                               ++ error_text error |} ] |})
  /\ run (account_tokens_tool w n args)
     = ([], inr {| content :=
                     [ {| type := "text";
                          text := "Error getting tokens: "
                                  ++ error_text error |} ] |}).
Proof.
  intros Hkey; split; destruct n; unfold_tool;
    repeat next_answer; reflexivity.
Qed.

(** C10. Every element read in the log of a last-transaction handler is
    a read of index 0 of a non-empty array, hence in bounds. *)
Theorem first_signature_read_in_bounds n args ev :
  In ev (fst (run (last_transaction_tool w n args))) ->
  in_bounds ev = true
  /\ (forall len index,
        ev = Read_element len index -> index = 0 /\ 0 < len).
Proof.
  destruct n; unfold_tool; repeat next_answer; cbn [In]; intros Hin;
    repeat match goal with
           | H : _ \/ _ |- _ => destruct H
           | H : False |- _ => destruct H
           | H : _ = ev |- _ => subst ev
           end;
    (split; [reflexivity |]);
    intros len index Heq; try discriminate;
    injection Heq as <- <-; cbn [length]; (split; [reflexivity | lia]).
Qed.

End Properties.

(** ** The claims on the test double *)

(** C1 at an endpoint that is down: the signature query rejects with an
    [Error], the token query with a value that is not an [Error]. *)
Lemma thrown_call_becomes_error_text_witness :
  last_transaction_throws (Mock.web3 Mock.offline) Testnet
    (mkArgs Mock.wallet) (JsError "TypeError" "fetch failed")
  /\ snd (run (get_soon_testnet_last_transaction (Mock.web3 Mock.offline)
                 (mkArgs Mock.wallet)))
     = inr (text_result "Error getting transaction: fetch failed")
  /\ account_tokens_throws (Mock.web3 Mock.offline) Mainnet
       (mkArgs Mock.wallet) (JsValue "503")
  /\ snd (run (get_soon_mainnet_account_tokens (Mock.web3 Mock.offline)
                 (mkArgs Mock.wallet)))
     = inr (text_result "Error getting tokens: 503").
Proof.
  assert (H1 : last_transaction_throws (Mock.web3 Mock.offline) Testnet
                 (mkArgs Mock.wallet) (JsError "TypeError" "fetch failed")).
  { eapply LT_getSignaturesForAddress; reflexivity. }
  assert (H2 : account_tokens_throws (Mock.web3 Mock.offline) Mainnet
                 (mkArgs Mock.wallet) (JsValue "503")).
  { eapply AT_getTokenAccountsByOwner; reflexivity. }
  split; [exact H1 |]. split.
  - exact (proj1 (thrown_call_becomes_error_text (Mock.web3 Mock.offline)
                    Testnet (mkArgs Mock.wallet)
                    (JsError "TypeError" "fetch failed")) H1).
  - split; [exact H2 |].
    exact (proj1 (proj2 (thrown_call_becomes_error_text
                           (Mock.web3 Mock.offline) Mainnet
                           (mkArgs Mock.wallet) (JsValue "503"))) H2).
Defined.

(** C2 at a wallet without transactions. *)
Lemma no_signature_no_transaction_request_witness :
  snd (run (get_soon_testnet_last_transaction (Mock.web3 Mock.fresh)
              (mkArgs Mock.wallet)))
  = inr (text_result "No transactions found for this address")
  /\ filter is_getConfirmedTransaction
       (fst (run (get_soon_testnet_last_transaction (Mock.web3 Mock.fresh)
                    (mkArgs Mock.wallet)))) = []
  /\ fst (run (get_soon_testnet_last_transaction (Mock.web3 Mock.fresh)
                 (mkArgs Mock.wallet)))
     = [ Call_getSignaturesForAddress connectionTestnet Mock.wallet
           (mkOptions (Some 1%Z)) ].
Proof.
  apply (no_signature_no_transaction_request (Mock.web3 Mock.fresh)
           Testnet (mkArgs Mock.wallet) Mock.wallet); reflexivity.
Defined.

(** C3 as stated fails where the signature query answers and the
    transaction query rejects: the text returned is the error text, and
    no transaction record exists whose serialization it could be. *)
Lemma last_transaction_serialized_counterexample :
  PublicKey_new (Mock.web3 Mock.half_online) Mock.wallet = inr Mock.wallet
  /\ getSignaturesForAddress (Mock.web3 Mock.half_online) connectionTestnet
       Mock.wallet (mkOptions (Some 1%Z))
     = inr [ Mock.mkInfo "5Sig" 7%Z ]
  /\ run (get_soon_testnet_last_transaction (Mock.web3 Mock.half_online)
            (mkArgs Mock.wallet))
     = ([ Call_getSignaturesForAddress connectionTestnet Mock.wallet
            (mkOptions (Some 1%Z));
          Read_element 1 0;
          Call_getConfirmedTransaction connectionTestnet "5Sig" ],
        inr (text_result "Error getting transaction: Method not found"))
  /\ ~ (exists transaction json,
          getConfirmedTransaction (Mock.web3 Mock.half_online)
            connectionTestnet "5Sig" = inr transaction
          /\ serialized (Mock.web3 Mock.half_online) transaction = inr json
          /\ snd (run (get_soon_testnet_last_transaction
                         (Mock.web3 Mock.half_online) (mkArgs Mock.wallet)))
             = inr (text_result json)).
Proof.
  repeat split.
  intros [transaction [json [Htx _]]]. discriminate Htx.
Qed.

(** C3 as amended, at a wallet with one transaction. *)
Lemma last_transaction_requests_and_result_witness :
  filter is_request
    (fst (run (get_soon_mainnet_last_transaction (Mock.web3 Mock.funded)
                 (mkArgs Mock.wallet))))
  = [ Call_getSignaturesForAddress connectionMainnet Mock.wallet
        (mkOptions (Some 1%Z));
      Call_getConfirmedTransaction connectionMainnet "5Sig" ]
  /\ snd (run (get_soon_mainnet_last_transaction (Mock.web3 Mock.funded)
                 (mkArgs Mock.wallet)))
     = inr (text_result "{}").
Proof.
  destruct (last_transaction_requests_and_result (Mock.web3 Mock.funded)
              Mainnet (mkArgs Mock.wallet) Mock.wallet
              (Mock.mkInfo "5Sig" 7%Z) [] eq_refl eq_refl)
    as [Hlog [Hok _]].
  split; [exact Hlog |].
  exact (Hok (Some "{}") "{}" eq_refl eq_refl).
Defined.

(** C4 at a funded wallet. *)
Lemma balance_text_witness :
  snd (run (get_soon_testnet_balance (Mock.web3 Mock.funded)
              (mkArgs Mock.wallet)))
  = inr (text_result "Balance: 2500").
Proof.
  exact (balance_text (Mock.web3 Mock.funded) Testnet (mkArgs Mock.wallet)
           Mock.wallet 2500%Z eq_refl eq_refl).
Defined.

(** C5 at a malformed address, and at an endpoint that is down. *)
Lemma balance_errors_propagate_witness :
  run (get_soon_mainnet_balance (Mock.web3 Mock.funded) (mkArgs "0x12"))
  = ([], inl (JsError "Error" "Invalid public key input"))
  /\ run (get_soon_mainnet_balance (Mock.web3 Mock.offline)
            (mkArgs Mock.wallet))
     = ([ Call_getBalance connectionMainnet Mock.wallet ],
        inl (JsError "TypeError" "fetch failed")).
Proof.
  split.
  - exact (proj1 (balance_errors_propagate (Mock.web3 Mock.funded) Mainnet
                    (mkArgs "0x12")
                    (JsError "Error" "Invalid public key input")) eq_refl).
  - exact (proj1 (proj2 (balance_errors_propagate (Mock.web3 Mock.offline)
                           Mainnet (mkArgs Mock.wallet)
                           (JsError "TypeError" "fetch failed")))
             Mock.wallet eq_refl eq_refl).
Defined.

(** C6 at a wallet with token accounts. *)
Lemma account_tokens_fixed_filter_witness :
  fst (run (get_soon_testnet_account_tokens (Mock.web3 Mock.funded)
              (mkArgs Mock.wallet)))
  = [ Call_getTokenAccountsByOwner connectionTestnet Mock.wallet
        (programId "TokenkegQfeZyiNwAJbNbGKPFXCWuBvf9Ss623VQ5DA") ]
  /\ exists program,
       Mock.new_key "TokenkegQfeZyiNwAJbNbGKPFXCWuBvf9Ss623VQ5DA"
         = inr program
       /\ programId "TokenkegQfeZyiNwAJbNbGKPFXCWuBvf9Ss623VQ5DA"
          = programId program.
Proof.
  split.
  - exact (proj2 (account_tokens_fixed_filter (Mock.web3 Mock.funded)
                    Testnet (mkArgs Mock.wallet))
             Mock.wallet "TokenkegQfeZyiNwAJbNbGKPFXCWuBvf9Ss623VQ5DA"
             eq_refl eq_refl).
  - apply (proj1 (account_tokens_fixed_filter (Mock.web3 Mock.funded)
                    Testnet (mkArgs Mock.wallet))
             connectionTestnet Mock.wallet).
    left; reflexivity.
Defined.

(** C7 at the catch path of the second registered tool. *)
Lemma every_result_is_one_text_block_witness :
  exists payload : string,
    content (text_result "Error getting transaction: Invalid public key input")
    = [ {| type := "text"; text := payload |} ]
    /\ length (content
         (text_result "Error getting transaction: Invalid public key input"))
       = 1.
Proof.
  apply (every_result_is_one_text_block (Mock.web3 Mock.funded)
           (mkTool string "get-soon-testnet-last-transaction"
              "Get the last transaction of an address on the Soon testnet"
              (get_soon_testnet_last_transaction (Mock.web3 Mock.funded)))
           (mkArgs "0x12")).
  - right; left; reflexivity.
  - reflexivity.
Defined.

(** C8 at the detail request of the mainnet last-transaction tool. *)
Lemma requests_stay_on_their_network_witness :
  (includes "testnet" "get-soon-mainnet-last-transaction" = true ->
     connectionMainnet = connectionTestnet
     /\ connectionMainnet <> connectionMainnet)
  /\ (includes "mainnet" "get-soon-mainnet-last-transaction" = true ->
     connectionMainnet = connectionMainnet
     /\ connectionMainnet <> connectionTestnet).
Proof.
  apply (requests_stay_on_their_network (Mock.web3 Mock.funded)
           (mkTool string "get-soon-mainnet-last-transaction"
              "Get the last transaction of an address on the Soon mainnet"
              (get_soon_mainnet_last_transaction (Mock.web3 Mock.funded)))
           (mkArgs Mock.wallet)
           (Call_getConfirmedTransaction connectionMainnet "5Sig")).
  - do 4 right; left; reflexivity.
  - right; right; left; reflexivity.
  - reflexivity.
Defined.

(** C9 at a malformed address. *)
Lemma malformed_address_is_caught_witness :
  run (get_soon_testnet_last_transaction (Mock.web3 Mock.funded)
         (mkArgs "not-a-key"))
  = ([], inr (text_result
                "Error getting transaction: Invalid public key input"))
  /\ run (get_soon_testnet_account_tokens (Mock.web3 Mock.funded)
            (mkArgs "not-a-key"))
     = ([], inr (text_result "Error getting tokens: Invalid public key input")).
Proof.
  exact (malformed_address_is_caught (Mock.web3 Mock.funded) Testnet
           (mkArgs "not-a-key") (JsError "Error" "Invalid public key input")
           eq_refl).
Defined.

(** C10 at the one element read of a run that reaches it. *)
Lemma first_signature_read_in_bounds_witness :
  In (Read_element 1 0)
     (fst (run (get_soon_testnet_last_transaction (Mock.web3 Mock.funded)
                  (mkArgs Mock.wallet))))
  /\ @in_bounds string (Read_element 1 0) = true
  /\ (forall len index,
        @Read_element string 1 0 = Read_element len index ->
        index = 0 /\ 0 < len).
Proof.
  assert (Hin : In (Read_element 1 0)
                  (fst (run (get_soon_testnet_last_transaction
                               (Mock.web3 Mock.funded) (mkArgs Mock.wallet))))).
  { right; left; reflexivity. }
  split; [exact Hin |].
  exact (first_signature_read_in_bounds (Mock.web3 Mock.funded) Testnet
           (mkArgs Mock.wallet) (Read_element 1 0) Hin).
Defined.

(** ** Further properties of the handlers *)

Section HandlerProperties.

Context {PublicKey Number ConfirmedSignatureInfo
         ConfirmedTransaction TokenAccounts : Type}.
Variable w : Web3 PublicKey Number ConfirmedSignatureInfo
                  ConfirmedTransaction TokenAccounts.

(** X1. The handlers of the last-transaction and the account-tokens
    family never reject: on every input and whatever the library answers
    or throws, the promise resolves with a result. *)
Theorem caught_families_always_resolve n args :
  (exists result,
      snd (run (last_transaction_tool w n args)) = inr result)
  /\ (exists result,
        snd (run (account_tokens_tool w n args)) = inr result).
Proof.
  split; destruct n; unfold_tool; repeat next_answer;
    eexists; reflexivity.
Qed.

(** X2. A balance handler rejects only with what a call it made threw:
    the key constructor on the address, or the balance query on the key
    built from it. *)
Theorem balance_rejection_comes_from_a_call n args error :
  snd (run (balance_tool w n args)) = inl error ->
  PublicKey_new w (address args) = inl error
  \/ exists key,
       PublicKey_new w (address args) = inr key
       /\ getBalance w (connection_of n) key = inl error.
Proof.
  intros Hrej.
  destruct (PublicKey_new w (address args)) as [e | key] eqn:Hkey.
  - left. revert Hrej.
    destruct n; unfold_tool; repeat next_answer; congruence.
  - right. exists key. split; [reflexivity |].
    destruct (getBalance w (connection_of n) key) as [e | balance] eqn:Hbal;
      revert Hrej;
      destruct n; unfold_tool; cbn [connection_of] in *;
      repeat next_answer; congruence.
Qed.


(** X4. The log of a last-transaction handler has one of three shapes:
    empty, when the address is rejected by the key constructor; the
    signature query with [limit = 1] alone, when that query rejects or
    answers with no entry; or that query, the read of element 0 and the
    transaction query for the signature of the first entry. *)
Theorem last_transaction_log_shapes n args :
  (fst (run (last_transaction_tool w n args)) = []
   /\ exists error, PublicKey_new w (address args) = inl error)
  \/ (exists key,
        PublicKey_new w (address args) = inr key
        /\ fst (run (last_transaction_tool w n args))
           = [ Call_getSignaturesForAddress (connection_of n) key
                 (mkOptions (Some 1%Z)) ]
        /\ (getSignaturesForAddress w (connection_of n) key
              (mkOptions (Some 1%Z)) = inr []
            \/ exists error,
                 getSignaturesForAddress w (connection_of n) key
                   (mkOptions (Some 1%Z)) = inl error))
  \/ (exists key info rest,
        PublicKey_new w (address args) = inr key
        /\ getSignaturesForAddress w (connection_of n) key
             (mkOptions (Some 1%Z)) = inr (info :: rest)
        /\ fst (run (last_transaction_tool w n args))
           = [ Call_getSignaturesForAddress (connection_of n) key
                 (mkOptions (Some 1%Z));
               Read_element (S (length rest)) 0;
               Call_getConfirmedTransaction (connection_of n)
                 (signature w info) ]).
Proof.
  destruct (PublicKey_new w (address args)) as [e | key] eqn:Hkey.
  - left. split; [| eauto].
    destruct n; unfold_tool; repeat next_answer; reflexivity.
  - right.
    destruct (getSignaturesForAddress w (connection_of n) key
                (mkOptions (Some 1%Z))) as [e | [| info rest]] eqn:Hsigs.
    + left. exists key. split; [reflexivity |]. split; [| eauto].
      destruct n; unfold_tool; cbn [connection_of] in *;
        repeat next_answer; reflexivity.
    + left. exists key. split; [reflexivity |]. split; [| auto].
      destruct n; unfold_tool; cbn [connection_of] in *;
        repeat next_answer; reflexivity.
    + right. exists key, info, rest.
      split; [reflexivity |]. split; [exact Hsigs |].
      destruct n; unfold_tool; cbn [connection_of] in *;
        repeat next_answer; reflexivity.
Qed.

(** X5. When both keys are built, the token-account query resolves and
    its answer is serialized, an account-tokens handler has sent that
    one request and resolves with one text block holding the
    serialization. *)
Theorem account_tokens_success n args owner program tokens json :
  PublicKey_new w (address args) = inr owner ->
  PublicKey_new w "TokenkegQfeZyiNwAJbNbGKPFXCWuBvf9Ss623VQ5DA"
    = inr program ->
  getTokenAccountsByOwner w (connection_of n) owner (programId program)
    = inr tokens ->
  stringify_tokens w tokens = inr json ->
  run (account_tokens_tool w n args)
  = ([ Call_getTokenAccountsByOwner (connection_of n) owner
         (programId program) ],
     inr {| content := [ {| type := "text"; text := json |} ] |}).
Proof.
  intros Howner Hprogram Htokens Hjson.
  destruct n; unfold_tool; cbn [connection_of] in *;
    repeat next_answer; reflexivity.
Qed.

(** X6. When the transaction query resolves to [null] for the newest
    signature, a last-transaction handler resolves with the text
    "null": neither the "No transactions found" text nor an error
    text. *)
Theorem null_transaction_is_the_text_null n args key info rest :
  PublicKey_new w (address args) = inr key ->
  getSignaturesForAddress w (connection_of n) key (mkOptions (Some 1%Z))
    = inr (info :: rest) ->
  getConfirmedTransaction w (connection_of n) (signature w info)
    = inr None ->
  snd (run (last_transaction_tool w n args))
  = inr {| content := [ {| type := "text"; text := "null" |} ] |}.
Proof.
  intros Hkey Hsigs Htx.
  destruct n; unfold_tool; cbn [connection_of] in *;
    repeat next_answer; reflexivity.
Qed.

(** X7. The testnet and the mainnet variant of a tool differ in the
    handle only: where both endpoints answer alike, the two variants
    resolve or reject alike, and the log of the mainnet variant is the
    log of the testnet variant with every request sent through
    [connectionMainnet]. *)
Theorem network_variants_agree args :
  same_answers w ->
  (snd (run (balance_tool w Mainnet args))
   = snd (run (balance_tool w Testnet args))
   /\ fst (run (balance_tool w Mainnet args))
      = map (retarget connectionMainnet)
            (fst (run (balance_tool w Testnet args))))
  /\ (snd (run (last_transaction_tool w Mainnet args))
      = snd (run (last_transaction_tool w Testnet args))
      /\ fst (run (last_transaction_tool w Mainnet args))
         = map (retarget connectionMainnet)
               (fst (run (last_transaction_tool w Testnet args))))
  /\ (snd (run (account_tokens_tool w Mainnet args))
      = snd (run (account_tokens_tool w Testnet args))
      /\ fst (run (account_tokens_tool w Mainnet args))
         = map (retarget connectionMainnet)
               (fst (run (account_tokens_tool w Testnet args)))).
Proof.
  intros (Hbal & Hsigs & Htx & Htok).
  repeat split; unfold_tool;
    repeat match goal with
           | |- context [getBalance w connectionTestnet ?k] =>
               rewrite (Hbal k)
           | |- context [getSignaturesForAddress w connectionTestnet ?k ?o] =>
               rewrite (Hsigs k o)
           | |- context [getConfirmedTransaction w connectionTestnet ?s] =>
               rewrite (Htx s)
           | |- context [getTokenAccountsByOwner w connectionTestnet ?o ?f] =>
               rewrite (Htok o f)
           | _ => next_answer
           end;
    reflexivity.
Qed.

(** X8. The capabilities handed to the server constructor are the names
    registered by the six [server.tool] calls, in the same order, and no
    name is registered twice. *)
Theorem capabilities_are_the_registered_names :
  capabilities server = map tool_name (server_tools w)
  /\ NoDup (map tool_name (server_tools w)).
Proof.
  split; [reflexivity |].
  cbn [map server_tools tool_name].
  repeat (constructor; [cbn [In]; intuition discriminate |]).
  constructor.
Qed.

End HandlerProperties.

(** ** Properties of the start of the process *)

(** Unfolds the start-up code down to the answers of the library. *)
Ltac unfold_startup :=
  cbv [run_process start main bind ret raise catch
       Monad_Process Exc_Process
       Process_bind Process_ret Process_throw Process_catch
       console_error process_exit sdk_call];
  cbn [app].

(** Closes a goal from [H], a membership of a line in a list of other
    lines. *)
Ltac absent_line H :=
  exfalso; repeat destruct H as [H | H]; try discriminate H; exact H.

Section StartupProperties.

Context {Transport : Type}.
Variable sdk : Sdk Transport.

(** X9. When the transport is built and [server.connect] resolves, the
    start-up writes its three progress lines, in order, and returns:
    [process.exit] is not called and no error line is written. *)
Theorem startup_success transport :
  StdioServerTransport_new sdk = inr transport ->
  server_connect sdk transport = inr tt ->
  run_process (start sdk)
  = ([ Line "Starting MCP server..." None;
       Line "Transport initialized, connecting to server..." None;
       Line "Server connection established successfully" None ],
     Returned tt).
Proof.
  intros Htransport Hconnect. unfold_startup.
  rewrite Htransport. cbn [app]. rewrite Hconnect. reflexivity.
Qed.

(** X10. When the transport constructor or [server.connect] throws, the
    start-up writes the progress lines reached so far, then the line
    "There was an error connecting to the server:" with the thrown
    value, and ends the process with exit code 1. *)
Theorem startup_failure_exits_with_1 error :
  (StdioServerTransport_new sdk = inl error ->
     run_process (start sdk)
     = ([ Line "Starting MCP server..." None;
          Line "There was an error connecting to the server:" (Some error) ],
        Exited 1%Z))
  /\ (forall transport,
        StdioServerTransport_new sdk = inr transport ->
        server_connect sdk transport = inl error ->
        run_process (start sdk)
        = ([ Line "Starting MCP server..." None;
             Line "Transport initialized, connecting to server..." None;
             Line "There was an error connecting to the server:"
               (Some error) ],
           Exited 1%Z)).
Proof.
  split.
  - intros Htransport. unfold_startup. rewrite Htransport. reflexivity.
  - intros transport Htransport Hconnect. unfold_startup.
    rewrite Htransport. cbn [app]. rewrite Hconnect. reflexivity.
Qed.

(** X11. [main] handles every failure itself: whatever the library
    does, the promise of [main] does not reject, so the handler passed
    to [main().catch] never runs and its line "There was an error
    starting the server:" is never written; the process exits with no
    code other than 1; and "Starting MCP server..." is always the first
    line. *)
Theorem main_never_rejects :
  run_process (start sdk) = run_process (main sdk)
  /\ (forall error, snd (run_process (main sdk)) <> Threw error)
  /\ (forall code, snd (run_process (start sdk)) = Exited code -> code = 1%Z)
  /\ ~ In "There was an error starting the server:"
         (map diagnostic_message (fst (run_process (start sdk))))
  /\ (exists rest,
        fst (run_process (start sdk))
        = Line "Starting MCP server..." None :: rest).
Proof.
  unfold_startup.
  destruct (StdioServerTransport_new sdk) as [e | transport];
    [| cbn [app]; destruct (server_connect sdk transport) as [e | []]];
    cbn [app fst snd map diagnostic_message In];
    (split; [reflexivity |]);
    (split; [intros error; discriminate |]);
    (split; [intros code Hcode;
             first [ discriminate Hcode
                   | injection Hcode as <-; reflexivity ] |]);
    (split; [intros H; absent_line H |]);
    eexists; reflexivity.
Qed.

(** X12. The process exits during start-up exactly when no line
    "Server connection established successfully" was written, and
    returns exactly when it was. *)
Theorem connected_line_iff_returned :
  (snd (run_process (start sdk)) = Returned tt
   <-> In "Server connection established successfully"
          (map diagnostic_message (fst (run_process (start sdk)))))
  /\ (snd (run_process (start sdk)) = Exited 1%Z
      <-> ~ In "Server connection established successfully"
              (map diagnostic_message (fst (run_process (start sdk))))).
Proof.
  unfold_startup.
  destruct (StdioServerTransport_new sdk) as [e | transport];
    [| cbn [app]; destruct (server_connect sdk transport) as [e | []]];
    cbn [app fst snd map diagnostic_message In].
  - split; split.
    + discriminate.
    + intros H; absent_line H.
    + intros _ H; absent_line H.
    + reflexivity.
  - split; split.
    + discriminate.
    + intros H; absent_line H.
    + intros _ H; absent_line H.
    + reflexivity.
  - split; split.
    + intros _; right; right; left; reflexivity.
    + reflexivity.
    + discriminate.
    + intros H; exfalso; apply H; right; right; left; reflexivity.
Qed.

End StartupProperties.

(** ** The further properties on the test doubles *)

(** X2 at an endpoint that is down. *)
Lemma balance_rejection_comes_from_a_call_witness :
  Mock.new_key Mock.wallet = inl (JsError "TypeError" "fetch failed")
  \/ exists key,
       Mock.new_key Mock.wallet = inr key
       /\ getBalance (Mock.web3 Mock.offline) connectionTestnet key
          = inl (JsError "TypeError" "fetch failed").
Proof.
  exact (balance_rejection_comes_from_a_call (Mock.web3 Mock.offline)
           Testnet (mkArgs Mock.wallet)
           (JsError "TypeError" "fetch failed") eq_refl).
Defined.

(** X5 at a wallet with two token accounts. *)
Lemma account_tokens_success_witness :
  run (get_soon_mainnet_account_tokens (Mock.web3 Mock.funded)
         (mkArgs Mock.wallet))
  = ([ Call_getTokenAccountsByOwner connectionMainnet Mock.wallet
         (programId "TokenkegQfeZyiNwAJbNbGKPFXCWuBvf9Ss623VQ5DA") ],
     inr (text_result "a,b")).
Proof.
  exact (account_tokens_success (Mock.web3 Mock.funded) Mainnet
           (mkArgs Mock.wallet) Mock.wallet
           "TokenkegQfeZyiNwAJbNbGKPFXCWuBvf9Ss623VQ5DA"
           [ "a"; "b" ] "a,b" eq_refl eq_refl eq_refl eq_refl).
Defined.

(** X6 at a signature whose transaction is no longer kept. *)
Lemma null_transaction_is_the_text_null_witness :
  snd (run (get_soon_testnet_last_transaction (Mock.web3 Mock.pruned)
              (mkArgs Mock.wallet)))
  = inr (text_result "null").
Proof.
  exact (null_transaction_is_the_text_null (Mock.web3 Mock.pruned) Testnet
           (mkArgs Mock.wallet) Mock.wallet (Mock.mkInfo "5Sig" 7%Z) []
           eq_refl eq_refl eq_refl).
Defined.

(** X7 at the test double, which answers without looking at the handle. *)
Lemma network_variants_agree_witness :
  same_answers (Mock.web3 Mock.funded)
  /\ fst (run (get_soon_mainnet_last_transaction (Mock.web3 Mock.funded)
                 (mkArgs Mock.wallet)))
     = map (retarget connectionMainnet)
         [ Call_getSignaturesForAddress connectionTestnet Mock.wallet
             (mkOptions (Some 1%Z));
           Read_element 1 0;
           Call_getConfirmedTransaction connectionTestnet "5Sig" ].
Proof.
  assert (H : same_answers (Mock.web3 Mock.funded)).
  { repeat split. }
  split; [exact H |].
  exact (proj2 (proj1 (proj2 (network_variants_agree (Mock.web3 Mock.funded)
                                (mkArgs Mock.wallet) H)))).
Defined.

(** X9 at a library that connects. *)
Lemma startup_success_witness :
  run_process (start MockSdk.connects)
  = ([ Line "Starting MCP server..." None;
       Line "Transport initialized, connecting to server..." None;
       Line "Server connection established successfully" None ],
     Returned tt).
Proof.
  exact (startup_success MockSdk.connects tt eq_refl eq_refl).
Defined.

(** X10 without a transport, and with a refused connection. *)
Lemma startup_failure_exits_with_1_witness :
  run_process (start MockSdk.no_transport)
  = ([ Line "Starting MCP server..." None;
       Line "There was an error connecting to the server:"
         (Some (JsError "Error" "stdin is closed")) ],
     Exited 1%Z)
  /\ run_process (start MockSdk.refused)
     = ([ Line "Starting MCP server..." None;
          Line "Transport initialized, connecting to server..." None;
          Line "There was an error connecting to the server:"
            (Some (JsValue "already connected")) ],
        Exited 1%Z).
Proof.
  split.
  - exact (proj1 (startup_failure_exits_with_1 MockSdk.no_transport
                    (JsError "Error" "stdin is closed")) eq_refl).
  - exact (proj2 (startup_failure_exits_with_1 MockSdk.refused
                    (JsValue "already connected")) tt eq_refl eq_refl).
Defined.

(** X11 at a refused connection, whose exit code [1] is the one allowed. *)
Lemma main_never_rejects_witness :
  run_process (start MockSdk.refused) = run_process (main MockSdk.refused)
  /\ snd (run_process (start MockSdk.refused)) = Exited 1%Z
  /\ 1%Z = 1%Z.
Proof.
  split; [| split].
  - exact (proj1 (main_never_rejects MockSdk.refused)).
  - reflexivity.
  - exact (proj1 (proj2 (proj2 (main_never_rejects MockSdk.refused)))
             1%Z eq_refl).
Defined.

(** X12 at a library that connects, and at one that does not. *)
Lemma connected_line_iff_returned_witness :
  In "Server connection established successfully"
     (map diagnostic_message (fst (run_process (start MockSdk.connects))))
  /\ ~ In "Server connection established successfully"
         (map diagnostic_message
            (fst (run_process (start MockSdk.no_transport)))).
Proof.
  split.
  - exact (proj1 (proj1 (connected_line_iff_returned MockSdk.connects))
             eq_refl).
  - exact (proj1 (proj2 (connected_line_iff_returned MockSdk.no_transport))
             eq_refl).
Defined.
